(** * NEC LAN control: the frame codec of [nec_control.cpp]

    A shallow embedding of the wire-protocol code of [src/nec_control.cpp]
    and the properties of the frames it builds.

    Conventions of the embedding.
    - [nec_data_t] ([std::vector<uint8_t>]) is a [list Z]; a byte is a [Z] in
      [0, 256). Every conversion of a wider C++ value to [uint8_t] or
      [uint16_t] is written out as a [mod].
    - [size_t] and [int] quantities are [Z].
    - The [void f(nec_data_t &buffer, ...)] helpers pass the buffer
      explicitly: they take the buffer and return the extended buffer.
    - Socket and console effects live in a small state-and-exception monad
      over [dsp_world] (second half of the file). *)

From Stdlib Require Import ZArith String Ascii Bool Lia List.
Import ListNotations.

Local Open Scope Z_scope.

(** ** Data model *)

(** [typedef std::vector<uint8_t> nec_data_t;] *)
Definition nec_data_t : Type := list Z.

Definition is_uint8 (b : Z) : Prop := 0 <= b < 256.

(** Conversion of an integer to [uint8_t]. *)
Definition to_uint8 (z : Z) : Z := z mod 256.

(** Conversion of an integer to [uint16_t]. *)
Definition to_uint16 (z : Z) : Z := z mod 65536.

(** [enum nec_command_t { power, backlight };] *)
Inductive nec_command_t : Type := power | backlight.

(** [enum nec_message_t], with the value of each enumerator in
    [nec_message_code]. *)
Inductive nec_message_t : Type :=
| command
| command_reply
| get_parameter
| get_parameter_reply
| set_parameter
| set_parameter_reply.

Definition nec_message_code (t : nec_message_t) : Z :=
  match t with
  | command             => 0x41 (* 'A' *)
  | command_reply       => 0x42 (* 'B' *)
  | get_parameter       => 0x43 (* 'C' *)
  | get_parameter_reply => 0x44 (* 'D' *)
  | set_parameter       => 0x45 (* 'E' *)
  | set_parameter_reply => 0x46 (* 'F' *)
  end.

(** [struct nec_request_t] *)
Record nec_request_t : Type := mk_request {
  msg_type : nec_message_t;
  bytes : nec_data_t
}.

(** The elements of a [std::vector<uint8_t>] are bytes. *)
Definition wf_data (d : nec_data_t) : Prop := Forall is_uint8 d.
Definition wf_request (r : nec_request_t) : Prop := wf_data (bytes r).

Definition nec_max_msg_len : Z := 64.
Definition nec_std_int_len : Z := 4.
Definition nec_stx_etx_len : Z := 2.
Definition nec_dsp_timeout : Z := 2.

Definition nec_cmd_val_power_on : Z := 1.
Definition nec_cmd_val_power_off : Z := 4.

(** [nec_commands_list.find(cmd)->second]: the map has an entry for each
    enumerator of [nec_command_t], so the lookup is total. *)
Definition nec_commands_list (cmd : nec_command_t) : nec_request_t :=
  match cmd with
  | power     => mk_request command       [0x43; 0x32; 0x30; 0x33; 0x44; 0x36]
  | backlight => mk_request set_parameter [0x30; 0x30; 0x31; 0x30]
  end.

(** ** Building a frame *)

(** [buffer.push_back(x)] where [x] is converted to [uint8_t]. *)
Definition push_back (buffer : nec_data_t) (x : Z) : nec_data_t :=
  buffer ++ [to_uint8 x].

(** [void fill_buffer_start(nec_data_t &buffer, nec_message_t type, size_t len)] *)
Definition fill_buffer_start (buffer : nec_data_t) (type : nec_message_t)
  (len : Z) : nec_data_t :=
  let len := if len >? 9 then len + 7 else len in
  let buffer := push_back buffer 0x01 in
  let buffer := push_back buffer 0x30 in
  let buffer := push_back buffer 0x41 in
  let buffer := push_back buffer 0x30 in
  let buffer := push_back buffer (nec_message_code type) in
  let buffer := push_back buffer 0x30 in
  let buffer := push_back buffer (0x30 + len) in
  push_back buffer 0x02.

(** The loop of [fill_buffer_end]:
    [for (index; index < buffer.size(); index++) check = check ^ buffer[index];]
    with [todo] the number of iterations left, [buffer.size() - index]. *)
Fixpoint bcc_loop (buffer : nec_data_t) (index todo : nat) (check : Z) : Z :=
  match todo with
  | O => check
  | S todo' =>
      bcc_loop buffer (S index) todo' (to_uint8 (Z.lxor check (nth index buffer 0)))
  end.

(** [void fill_buffer_end(nec_data_t &buffer)] *)
Definition fill_buffer_end (buffer : nec_data_t) : nec_data_t :=
  let buffer := push_back buffer 0x03 in
  let check := nth 1 buffer 0 in
  let check := bcc_loop buffer 2 (length buffer - 2)%nat check in
  let buffer := push_back buffer check in
  push_back buffer 0x0D.

(** *** Formatting of the number

    [s_number << std::setfill('0') << std::setw(4) << std::hex << value]
    prints the [uint16_t] in base 16 with lowercase digits and without
    leading zeros, then pads it on the left with the fill character up to
    the field width. *)

Definition hex_digit (d : Z) : Z :=
  if d <? 10 then 0x30 + d else 0x61 + (d - 10).

(** Base-16 digits of [n], most significant first, at least one digit;
    [fuel] bounds the number of digits (4 for a [uint16_t]). *)
Fixpoint to_hex (fuel : nat) (n : Z) : list Z :=
  match fuel with
  | O => []
  | S fuel' =>
      (if n / 16 =? 0 then [] else to_hex fuel' (n / 16)) ++ [hex_digit (n mod 16)]
  end.

(** Right-adjusted output in a field of width [w] filled with [c]. *)
Definition setw_setfill (w : nat) (c : Z) (s : list Z) : list Z :=
  repeat c (w - length s) ++ s.

Definition s_number_str (value : Z) : list Z :=
  setw_setfill 4 0x30 (to_hex 4 value).

(** [void fill_number(nec_data_t &buffer, uint16_t value)]; the argument is
    converted to [uint16_t] at the call. *)
Definition fill_number (buffer : nec_data_t) (value : Z) : nec_data_t :=
  let value := to_uint16 value in
  let str := s_number_str value in
  let buffer := push_back buffer (nth 0 str 0) in
  let buffer := push_back buffer (nth 1 str 0) in
  let buffer := push_back buffer (nth 2 str 0) in
  push_back buffer (nth 3 str 0).

(** The buffer that [send_standard_cmd] builds for a looked-up [command]
    (lines 129 and 131 to 134), before it is written to the socket. *)
Definition encode (command : nec_request_t) (value : Z) : nec_data_t :=
  let buffer : nec_data_t := [] in
  let buffer :=
    fill_buffer_start buffer (msg_type command)
      (Z.of_nat (length (bytes command)) + nec_std_int_len + nec_stx_etx_len) in
  let buffer := buffer ++ bytes command in
  let buffer := fill_number buffer value in
  fill_buffer_end buffer.

(** ** The socket and the console

    The process-wide state the program acts on: the network (what the
    resolver, [socket], [connect] and the successive [read] calls answer),
    the descriptor [dsp_socket], what was written to the socket and what
    was printed. *)

Inductive cout_event : Type :=
| cout_text (s : string)           (* [std::cout << s] *)
| cout_endl                        (* [std::cout << std::endl] *)
| cout_hex_byte (b : Z).           (* [setfill('0') << setw(2) << hex << (int)byte << " "] *)

Record dsp_world : Type := mk_world {
  net_getaddrinfo : string -> string -> bool; (* [getaddrinfo] returns 0 *)
  net_socket : bool;                          (* [socket] does not return -1 *)
  net_connect : bool;                         (* [connect] does not return -1 *)
  net_replies : list (option nec_data_t);     (* answers of the successive [read]
                                                 calls; [None] and the empty list
                                                 (time-out) are a negative result *)
  net_written : list nec_data_t;              (* buffers given to [write], oldest first *)
  dsp_socket : bool;                          (* the descriptor is open *)
  std_cout : list cout_event;
  std_cerr : list string
}.

Definition set_replies (r : list (option nec_data_t)) (w : dsp_world) : dsp_world :=
  mk_world (net_getaddrinfo w) (net_socket w) (net_connect w) r
           (net_written w) (dsp_socket w) (std_cout w) (std_cerr w).

Definition set_written (x : list nec_data_t) (w : dsp_world) : dsp_world :=
  mk_world (net_getaddrinfo w) (net_socket w) (net_connect w) (net_replies w)
           x (dsp_socket w) (std_cout w) (std_cerr w).

Definition set_socket (b : bool) (w : dsp_world) : dsp_world :=
  mk_world (net_getaddrinfo w) (net_socket w) (net_connect w) (net_replies w)
           (net_written w) b (std_cout w) (std_cerr w).

Definition set_cout (o : list cout_event) (w : dsp_world) : dsp_world :=
  mk_world (net_getaddrinfo w) (net_socket w) (net_connect w) (net_replies w)
           (net_written w) (dsp_socket w) o (std_cerr w).

Definition set_cerr (e : list string) (w : dsp_world) : dsp_world :=
  mk_world (net_getaddrinfo w) (net_socket w) (net_connect w) (net_replies w)
           (net_written w) (dsp_socket w) (std_cout w) e.

Definition dquote : string := String (ascii_of_nat 34) EmptyString.

(** The only exception the program throws. *)
Inductive exception : Type := runtime_error (what : string).

Inductive outcome (A : Type) : Type :=
| Returned (a : A)
| Thrown (e : exception).
Arguments Returned {A} a.
Arguments Thrown {A} e.

Definition io (A : Type) : Type := dsp_world -> outcome A * dsp_world.

Definition ret {A} (a : A) : io A := fun w => (Returned a, w).

Definition throw {A} (e : exception) : io A := fun w => (Thrown e, w).

Definition bind {A B} (c : io A) (k : A -> io B) : io B :=
  fun w =>
    match c w with
    | (Returned a, w') => k a w'
    | (Thrown e, w') => (Thrown e, w')
    end.

(** [try { body } catch (const std::runtime_error &e) { handler }] *)
Definition try_catch {A} (body : io A) (handler : exception -> io A) : io A :=
  fun w =>
    match body w with
    | (Returned a, w') => (Returned a, w')
    | (Thrown e, w') => handler e w'
    end.

Notation "x <- c1 ;; c2" := (bind c1 (fun x => c2))
  (at level 61, c1 at next level, right associativity).
Notation "c1 ;; c2" := (bind c1 (fun _ => c2))
  (at level 61, right associativity).

Definition modify (f : dsp_world -> dsp_world) : io unit :=
  fun w => (Returned tt, f w).

Definition get {A} (f : dsp_world -> A) : io A :=
  fun w => (Returned (f w), w).

(** [if (c) body;] *)
Definition when (c : bool) (body : io unit) : io unit :=
  if c then body else ret tt.

Definition cout (evs : list cout_event) : io unit :=
  modify (fun w => set_cout (std_cout w ++ evs) w).

Definition cerr (s : string) : io unit :=
  modify (fun w => set_cerr (std_cerr w ++ [s]) w).

(** [::close(dsp_socket)] *)
Definition close : io unit := modify (set_socket false).

(** [::write(dsp_socket, &buffer[0], buffer.size())]; the program ignores
    its result. *)
Definition write (buffer : nec_data_t) : io unit :=
  modify (fun w => set_written (net_written w ++ [buffer]) w).

(** [::read(dsp_socket, &buffer[0], count)]: the received bytes (at most
    [count] of them), or [None] for a negative result. *)
Definition read (count : Z) : io (option nec_data_t) :=
  fun w =>
    match net_replies w with
    | [] => (Returned None, w)
    | None :: rest => (Returned None, set_replies rest w)
    | Some data :: rest =>
        (Returned (Some (firstn (Z.to_nat count) data)), set_replies rest w)
    end.

(** [void connect(std::string remote_ip, std::string remote_port)] *)
Definition connect (remote_ip remote_port : string) : io unit :=
  resolved <- get (fun w => net_getaddrinfo w remote_ip remote_port) ;;
  if negb resolved then throw (runtime_error "cannot get address info")
  else
    created <- get net_socket ;;
    if negb created then throw (runtime_error "cannot create socket")
    else
      modify (set_socket true) ;;
      connected <- get net_connect ;;
      if negb connected then
        close ;;
        throw (runtime_error "cannot connect to monitor")
      else ret tt.

(** [void disconnect()] *)
Definition disconnect : io unit := close.

(** [void check_answer()]: the received bytes are printed, not checked. *)
Definition check_answer : io unit :=
  rcv <- read nec_max_msg_len ;;
  match rcv with
  | None => throw (runtime_error "cannot read from socket")
  | Some buffer =>
      cout (map cout_hex_byte buffer) ;;
      cout [cout_endl]
  end.

(** [void send_standard_cmd(nec_command_t cmd, int value)] *)
Definition send_standard_cmd (cmd : nec_command_t) (value : Z) : io unit :=
  let command := nec_commands_list cmd in
  let buffer := encode command value in
  write buffer ;;
  check_answer.

(** The variables of [main] that [CLI11_PARSE] fills in. An option that is
    not given leaves the initial value: [""] for [power_state], [-1] for
    [backlight]. *)
Record cli_options : Type := mk_options {
  remote_ip : string;
  remote_port : string;
  power_state : string;
  opt_backlight : Z;
  verbose : bool
}.

(** The checks attached to the options:
    [CLI::IsMember({"on", "off"})] and [CLI::Range(0,100)]. *)
Definition cli_valid (o : cli_options) : bool :=
  ((power_state o =? "")%string || (power_state o =? "on")%string
   || (power_state o =? "off")%string)
  && ((opt_backlight o =? -1) || ((0 <=? opt_backlight o) && (opt_backlight o <=? 100))).

(** [int main(int argc, char *argv[])] from line 156 on, that is after a
    successful [CLI11_PARSE]. When the parse fails (an unknown flag, a
    value that [IsMember] or [Range] refuses) the macro returns from
    [main] with the exit code of the parser and none of these statements
    runs: [main o] is the program for the options [o] that passed the
    parse, those with [cli_valid o = true]. *)
Definition main (o : cli_options) : io Z :=
  when (verbose o)
    (cout [cout_text "Connecting to IP "; cout_text (remote_ip o); cout_text ": "]) ;;
  try_catch
    (connect (remote_ip o) (remote_port o) ;;
     when (verbose o) (cout [cout_text "connected."; cout_endl]) ;;
     when (power_state o =? "on")%string
       (send_standard_cmd power nec_cmd_val_power_on) ;;
     when (power_state o =? "off")%string
       (send_standard_cmd power nec_cmd_val_power_off) ;;
     when (opt_backlight o >? 0)
       (send_standard_cmd backlight (opt_backlight o)) ;;
     disconnect ;;
     ret 0)
    (fun e =>
       match e with
       | runtime_error what =>
           cerr ("Not able to set the parameter: " ++ dquote ++ what ++ dquote)%string ;;
           ret 1
       end).

(** ** Reference definitions for the statements *)

(** XOR-reduction of a byte sequence. *)
Definition xor_reduce (l : list Z) : Z := fold_left Z.lxor l 0.

(** The bytes of [l] at the indices [i], [i+1], ..., [j] (inclusive). *)
Definition slice (i j : nat) (l : list Z) : list Z :=
  firstn (S j - i) (skipn i l).

(** The digit [d] as a lowercase hexadecimal character. *)
Definition lowercase_hex_char (d : Z) : Z :=
  match String.get (Z.to_nat d) "0123456789abcdef" with
  | Some c => Z.of_nat (nat_of_ascii c)
  | None => 0
  end.

(** The four hexadecimal digits of a 16-bit number, most significant first. *)
Definition nibbles (n : Z) : list Z :=
  [n / 4096 mod 16; n / 256 mod 16; n / 16 mod 16; n mod 16].

(** Width-[w] base-16 representation with leading zeros. *)
Fixpoint fixed_hex (w : nat) (n : Z) : list Z :=
  match w with
  | O => []
  | S w' => fixed_hex w' (n / 16) ++ [hex_digit (n mod 16)]
  end.

(** The raw payload length that [send_standard_cmd] passes on. *)
Definition raw_len (command : nec_request_t) : Z :=
  Z.of_nat (length (bytes command)) + nec_std_int_len + nec_stx_etx_len.

(** The second message-length byte for a raw length [len]. *)
Definition length_byte (len : Z) : Z :=
  to_uint8 (0x30 + (if len >? 9 then len + 7 else len)).

(** The first eight bytes of a frame. *)
Definition header (type : nec_message_t) (len : Z) : nec_data_t :=
  [0x01; 0x30; 0x41; 0x30; nec_message_code type; 0x30; length_byte len; 0x02].

(** The frame up to the last payload byte: header, prefix and number. *)
Definition body (command : nec_request_t) (value : Z) : nec_data_t :=
  header (msg_type command) (raw_len command)
    ++ bytes command ++ map hex_digit (nibbles (to_uint16 value)).

(** The buffers that the computation [c], run from [w], writes to the
    socket. *)
Definition frames_sent {A} (c : io A) (w : dsp_world) : list nec_data_t :=
  skipn (length (net_written w)) (net_written (snd (c w))).

(** A request whose prefix has ten bytes: its raw length is 16. *)
Definition long_request : nec_request_t :=
  mk_request command [0x43; 0x32; 0x30; 0x33; 0x44; 0x36; 0x30; 0x30; 0x30; 0x31].

(** A network that accepts the connection and answers the [read] calls
    with [replies]. *)
Definition world0 (replies : list (option nec_data_t)) : dsp_world :=
  mk_world (fun _ _ => true) true true replies [] false [] [].

(** The value of a hexadecimal character of either case, if it is one. *)
Definition hex_char_value (c : Z) : option Z :=
  if (0x30 <=? c) && (c <=? 0x39) then Some (c - 0x30)
  else if (0x41 <=? c) && (c <=? 0x46) then Some (c - 0x41 + 10)
  else if (0x61 <=? c) && (c <=? 0x66) then Some (c - 0x61 + 10)
  else None.

(** The number that a string of hexadecimal characters denotes. *)
Definition from_hex (s : list Z) : option Z :=
  fold_left
    (fun acc c =>
       match acc, hex_char_value c with
       | Some a, Some d => Some (16 * a + d)
       | _, _ => None
       end)
    s (Some 0).

(** The computation [c] leaves the component [f] of the state as it is,
    whether it returns or throws. *)
Definition preserves {A B} (f : dsp_world -> B) (c : io A) : Prop :=
  forall w, f (snd (c w)) = f w.

(** The state after [frame] was written and the answer [data] was read
    and printed, [rest] being the answers still to come. *)
Definition answered (frame data : nec_data_t)
  (rest : list (option nec_data_t)) (w : dsp_world) : dsp_world :=
  let w := set_written (net_written w ++ [frame]) w in
  let w := set_replies rest w in
  let w :=
    set_cout (std_cout w ++ map cout_hex_byte (firstn (Z.to_nat nec_max_msg_len) data)) w in
  set_cout (std_cout w ++ [cout_endl]) w.

(** The line that [main] prints on the error stream for an exception. *)
Definition error_line (what : string) : string :=
  ("Not able to set the parameter: " ++ dquote ++ what ++ dquote)%string.

(** The frames that [main] is to send for the options [o]: the power
    command for ["on"] or ["off"], then the backlight command. *)
Definition expected_frames (o : cli_options) : list nec_data_t :=
  (if (power_state o =? "on")%string
   then [encode (nec_commands_list power) nec_cmd_val_power_on] else [])
  ++ (if (power_state o =? "off")%string
      then [encode (nec_commands_list power) nec_cmd_val_power_off] else [])
  ++ (if opt_backlight o >? 0
      then [encode (nec_commands_list backlight) (opt_backlight o)] else []).

(** ** Bytes *)

Lemma to_uint8_small b : is_uint8 b -> to_uint8 b = b.
Proof. unfold is_uint8, to_uint8. intros H. now apply Z.mod_small. Qed.

Lemma to_uint8_is_uint8 z : is_uint8 (to_uint8 z).
Proof. unfold is_uint8, to_uint8. apply Z.mod_pos_bound. lia. Qed.

Lemma to_uint8_lxor a b :
  to_uint8 (Z.lxor a b) = Z.lxor (to_uint8 a) (to_uint8 b).
Proof.
  unfold to_uint8. change 256 with (2 ^ 8).
  rewrite <- !Z.land_ones by lia.
  apply Z.bits_inj'. intros n Hn.
  rewrite Z.lxor_spec, !Z.land_spec, Z.lxor_spec.
  destruct (Z.testbit (Z.ones 8) n); now rewrite ?andb_true_r, ?andb_false_r.
Qed.

Lemma lxor_is_uint8 a b : is_uint8 a -> is_uint8 b -> is_uint8 (Z.lxor a b).
Proof.
  intros Ha Hb.
  rewrite <- (to_uint8_small a Ha), <- (to_uint8_small b Hb), <- to_uint8_lxor.
  apply to_uint8_is_uint8.
Qed.

Lemma nec_message_code_uint8 t : is_uint8 (nec_message_code t).
Proof. destruct t; unfold is_uint8; simpl; lia. Qed.

Lemma hex_digit_uint8 d : 0 <= d < 16 -> is_uint8 (hex_digit d).
Proof.
  unfold hex_digit, is_uint8. intros H. destruct (d <? 10) eqn:E; lia.
Qed.

Lemma hex_digit_lowercase d : 0 <= d < 16 -> hex_digit d = lowercase_hex_char d.
Proof.
  intros H.
  assert (C : d = 0 \/ d = 1 \/ d = 2 \/ d = 3 \/ d = 4 \/ d = 5 \/ d = 6 \/ d = 7
              \/ d = 8 \/ d = 9 \/ d = 10 \/ d = 11 \/ d = 12 \/ d = 13 \/ d = 14
              \/ d = 15) by lia.
  repeat (destruct C as [-> | C]; [reflexivity | ]). now subst.
Qed.

Lemma wf_data_app a b : wf_data a -> wf_data b -> wf_data (a ++ b).
Proof. unfold wf_data. intros. apply Forall_app. now split. Qed.

Lemma wf_data_nth l i : wf_data l -> is_uint8 (nth i l 0).
Proof.
  intros H. destruct (Nat.lt_ge_cases i (length l)) as [Hi | Hi].
  - unfold wf_data in H. rewrite Forall_forall in H. apply H. now apply nth_In.
  - rewrite nth_overflow by assumption. unfold is_uint8. lia.
Qed.

Lemma wf_data_skipn l i : wf_data l -> wf_data (skipn i l).
Proof.
  unfold wf_data. rewrite !Forall_forall. intros H x Hx.
  apply H. rewrite <- (firstn_skipn i l). apply in_or_app. now right.
Qed.

(** ** The block check code *)

Lemma skipn_nth_cons (l : list Z) i :
  (i < length l)%nat -> skipn i l = nth i l 0 :: skipn (S i) l.
Proof.
  revert i. induction l as [| x l IH]; intros i Hi; simpl in Hi.
  - lia.
  - destruct i as [| i]; [reflexivity | ].
    simpl. apply IH. lia.
Qed.

(** The loop computes the XOR of the bytes from [index] on, starting from
    [check]. *)
Lemma bcc_loop_fold buffer todo : forall index check,
  wf_data buffer -> is_uint8 check ->
  (index + todo = length buffer)%nat ->
  bcc_loop buffer index todo check = fold_left Z.lxor (skipn index buffer) check.
Proof.
  induction todo as [| todo IH]; intros index check Hwf Hc Hlen; simpl.
  - replace index with (length buffer) by lia. now rewrite skipn_all.
  - rewrite (skipn_nth_cons buffer index) by lia. simpl.
    assert (Hx : is_uint8 (Z.lxor check (nth index buffer 0)))
      by (apply lxor_is_uint8; [assumption | now apply wf_data_nth]).
    rewrite (to_uint8_small _ Hx).
    apply IH; [assumption | assumption | lia].
Qed.

Lemma xor_reduce_is_uint8 l : wf_data l -> is_uint8 (xor_reduce l).
Proof.
  unfold xor_reduce.
  assert (G : forall acc, is_uint8 acc -> wf_data l ->
                          is_uint8 (fold_left Z.lxor l acc)).
  { induction l as [| x l IH]; intros acc Ha Hl; simpl; [assumption | ].
    inversion Hl; subst. apply IH; [now apply lxor_is_uint8 | assumption]. }
  intros H. apply G; [unfold is_uint8; lia | assumption].
Qed.

(** [fill_buffer_end] appends ETX, the XOR of everything after the first
    byte (ETX included), and the delimiter. *)
Lemma fill_buffer_end_eq buffer :
  wf_data buffer -> (2 <= length buffer)%nat ->
  fill_buffer_end buffer =
    buffer ++ [0x03; xor_reduce (skipn 1 (buffer ++ [0x03])); 0x0D].
Proof.
  intros Hwf Hlen. unfold fill_buffer_end, push_back.
  change (to_uint8 0x03) with 0x03. change (to_uint8 0x0D) with 0x0D.
  assert (Hwf3 : wf_data (buffer ++ [0x03])).
  { apply wf_data_app; [assumption | ].
    constructor; [unfold is_uint8; lia | constructor]. }
  assert (Hlen3 : length (buffer ++ [0x03]) = S (length buffer))
    by (rewrite length_app; simpl; lia).
  rewrite bcc_loop_fold;
    [ | assumption | now apply wf_data_nth | rewrite Hlen3; lia ].
  assert (Hx : xor_reduce (skipn 1 (buffer ++ [0x03])) =
               fold_left Z.lxor (skipn 2 (buffer ++ [0x03]))
                 (nth 1 (buffer ++ [0x03]) 0)).
  { unfold xor_reduce.
    rewrite (skipn_nth_cons (buffer ++ [0x03]) 1) by (rewrite Hlen3; lia).
    reflexivity. }
  rewrite <- Hx.
  rewrite to_uint8_small
    by (apply xor_reduce_is_uint8; now apply wf_data_skipn).
  rewrite <- !app_assoc. reflexivity.
Qed.

(** ** The number *)

Lemma fixed_hex_zero w : fixed_hex w 0 = repeat 0x30 w.
Proof.
  induction w as [| w IH]; [reflexivity | ].
  simpl fixed_hex. change (0 / 16) with 0. rewrite IH.
  change (hex_digit (0 mod 16)) with 0x30.
  now rewrite <- repeat_cons.
Qed.

Lemma setw_setfill_snoc w c s x :
  setw_setfill (S w) c (s ++ [x]) = setw_setfill w c s ++ [x].
Proof.
  unfold setw_setfill. rewrite length_app. simpl length.
  replace (S w - (length s + 1))%nat with (w - length s)%nat by lia.
  now rewrite app_assoc.
Qed.

(** Padding the shortest representation to the width gives the fixed-width
    one, when the number fits: [fuel] digits are enough below [16 ^ fuel]. *)
Lemma setw_to_hex w : forall n,
  0 <= n < 16 ^ Z.of_nat w ->
  setw_setfill w 0x30 (to_hex w n) = fixed_hex w n.
Proof.
  induction w as [| w IH]; intros n Hn.
  - reflexivity.
  - simpl to_hex. simpl fixed_hex. rewrite setw_setfill_snoc. f_equal.
    rewrite Nat2Z.inj_succ, Z.pow_succ_r in Hn by lia.
    destruct (n / 16 =? 0) eqn:E.
    + apply Z.eqb_eq in E. rewrite E, fixed_hex_zero.
      unfold setw_setfill. simpl. now rewrite Nat.sub_0_r, app_nil_r.
    + apply IH. split.
      * apply Z.div_pos; lia.
      * apply Z.div_lt_upper_bound; lia.
Qed.

Lemma to_uint16_range v : 0 <= to_uint16 v < 65536.
Proof. unfold to_uint16. apply Z.mod_pos_bound. lia. Qed.

Lemma s_number_str_eq v :
  0 <= v < 65536 -> s_number_str v = map hex_digit (nibbles v).
Proof.
  intros Hv. unfold s_number_str. rewrite setw_to_hex by (simpl; lia).
  unfold nibbles. simpl.
  rewrite !Z.div_div by lia. reflexivity.
Qed.

Lemma nibbles_range v : Forall (fun d => 0 <= d < 16) (nibbles v).
Proof.
  unfold nibbles. repeat constructor; apply Z.mod_pos_bound; lia.
Qed.

(** [fill_number] appends the four lowercase hexadecimal digits of the
    value reduced to 16 bits. *)
Lemma fill_number_eq buffer v :
  fill_number buffer v = buffer ++ map hex_digit (nibbles (to_uint16 v)).
Proof.
  unfold fill_number, push_back.
  rewrite s_number_str_eq by apply to_uint16_range.
  pose proof (nibbles_range (to_uint16 v)) as Hn.
  unfold nibbles in *. simpl map. simpl nth.
  inversion Hn as [| ? ? H3 Hn1]; subst.
  inversion Hn1 as [| ? ? H2 Hn2]; subst.
  inversion Hn2 as [| ? ? H1 Hn3]; subst.
  inversion Hn3 as [| ? ? H0 _]; subst.
  rewrite !to_uint8_small by (now apply hex_digit_uint8).
  rewrite <- !app_assoc. reflexivity.
Qed.

Lemma wf_hex_nibbles v : wf_data (map hex_digit (nibbles v)).
Proof.
  unfold wf_data. rewrite Forall_map.
  eapply Forall_impl; [ | apply nibbles_range ].
  intros d Hd. now apply hex_digit_uint8.
Qed.

(** ** The frame *)

Lemma fill_buffer_start_eq buffer type len :
  fill_buffer_start buffer type len = buffer ++ header type len.
Proof.
  unfold fill_buffer_start, push_back, header, length_byte.
  rewrite (to_uint8_small _ (nec_message_code_uint8 type)).
  rewrite <- !app_assoc. reflexivity.
Qed.

Lemma wf_header type len : wf_data (header type len).
Proof.
  assert (C : forall k, (0 <=? k) && (k <? 256) = true -> is_uint8 k).
  { intros k Hk. apply andb_true_iff in Hk. unfold is_uint8. lia. }
  unfold header, wf_data.
  repeat (apply Forall_cons; [ first [ now apply C
                                     | apply nec_message_code_uint8
                                     | apply to_uint8_is_uint8 ] | ]).
  constructor.
Qed.

Lemma wf_body command value : wf_request command -> wf_data (body command value).
Proof.
  intros H. unfold body.
  apply wf_data_app; [apply wf_header | ].
  apply wf_data_app; [exact H | apply wf_hex_nibbles].
Qed.

Lemma length_body command value :
  length (body command value) = (length (bytes command) + 12)%nat.
Proof. unfold body. rewrite !length_app. simpl. lia. Qed.

(** The buffer of [send_standard_cmd] just before [fill_buffer_end]. *)
Lemma encode_unfold command value :
  encode command value = fill_buffer_end (body command value).
Proof.
  unfold encode. rewrite fill_buffer_start_eq, fill_number_eq.
  unfold body. fold (raw_len command).
  now rewrite app_nil_l, <- app_assoc.
Qed.

(** Shape of every frame of well-formed request. *)
Lemma encode_eq command value :
  wf_request command ->
  encode command value =
    body command value
      ++ [0x03; xor_reduce (skipn 1 (body command value ++ [0x03])); 0x0D].
Proof.
  intros H. rewrite encode_unfold. apply fill_buffer_end_eq.
  - now apply wf_body.
  - rewrite length_body. lia.
Qed.

Lemma length_fill_buffer_end buffer :
  length (fill_buffer_end buffer) = (length buffer + 3)%nat.
Proof. unfold fill_buffer_end, push_back. rewrite !length_app. simpl. lia. Qed.

Lemma body_to_uint16 command value :
  body command (to_uint16 value) = body command value.
Proof.
  unfold body, to_uint16. now rewrite Z.mod_mod by lia.
Qed.

Lemma hex_nibbles_lowercase v :
  map hex_digit (nibbles v) = map lowercase_hex_char (nibbles v).
Proof.
  apply map_ext_in. intros d Hd.
  apply hex_digit_lowercase.
  pose proof (nibbles_range v) as H. rewrite Forall_forall in H. now apply H.
Qed.

(** Whatever the request and the value, the frame is the header, the
    prefix, four digits, ETX, one more byte and the delimiter. *)
Lemma encode_complete command value :
  exists bcc,
    encode command value =
      header (msg_type command) (raw_len command) ++ bytes command
        ++ map lowercase_hex_char (nibbles (to_uint16 value))
        ++ [0x03; bcc; 0x0D].
Proof.
  rewrite encode_unfold. unfold fill_buffer_end, push_back.
  eexists. rewrite <- hex_nibbles_lowercase. unfold body.
  change (to_uint8 0x03) with 0x03. change (to_uint8 0x0D) with 0x0D.
  rewrite <- !app_assoc. reflexivity.
Qed.

Lemma length_encode command value :
  length (encode command value) = (length (bytes command) + 15)%nat.
Proof.
  rewrite encode_unfold, length_fill_buffer_end, length_body. lia.
Qed.

(** The frame only depends on the low 16 bits of the value. *)
Lemma encode_mod command value :
  encode command value = encode command (value mod 65536).
Proof.
  rewrite !encode_unfold. f_equal. symmetry. apply body_to_uint16.
Qed.

(** ** Sending *)

(** Runs the monadic code of the goal as far as the network lets it. *)
Ltac run_io :=
  cbv -[send_standard_cmd encode nec_commands_list Z.gtb app length skipn].

Lemma check_answer_written w :
  net_written (snd (check_answer w)) = net_written w.
Proof.
  unfold check_answer, bind, read.
  destruct (net_replies w) as [| [data |] rest]; reflexivity.
Qed.

Lemma check_answer_outcome w :
  fst (check_answer w) =
    match net_replies w with
    | Some _ :: _ => Returned tt
    | _ => Thrown (runtime_error "cannot read from socket")
    end.
Proof.
  unfold check_answer, bind, read.
  destruct (net_replies w) as [| [data |] rest]; reflexivity.
Qed.

Lemma send_standard_cmd_written cmd value w :
  net_written (snd (send_standard_cmd cmd value w)) =
    net_written w ++ [encode (nec_commands_list cmd) value].
Proof.
  unfold send_standard_cmd, bind, write, modify.
  match goal with |- context [check_answer ?x] =>
    pose proof (check_answer_written x) as H; destruct (check_answer x) as [[u | e] w']
  end; simpl in *; exact H.
Qed.

Lemma send_standard_cmd_frames cmd value w :
  frames_sent (send_standard_cmd cmd value) w = [encode (nec_commands_list cmd) value].
Proof.
  unfold frames_sent. rewrite send_standard_cmd_written.
  rewrite skipn_app, skipn_all, Nat.sub_diag. reflexivity.
Qed.

Lemma send_standard_cmd_outcome cmd value w :
  fst (send_standard_cmd cmd value w) =
    match net_replies w with
    | Some _ :: _ => Returned tt
    | _ => Thrown (runtime_error "cannot read from socket")
    end.
Proof.
  unfold send_standard_cmd, bind, write, modify.
  match goal with |- context [check_answer ?x] =>
    pose proof (check_answer_outcome x) as H; destruct (check_answer x) as [[u | e] w']
  end; simpl in *; try destruct u; exact H.
Qed.

(** ** Properties of the frames *)

(** C1. In every frame that [encode] produces (for a request whose prefix
    is a sequence of bytes), the byte right after ETX is the XOR of the
    frame bytes from index 1 (the reserved byte) through the ETX byte;
    ETX sits at index [prefix length + 12]. *)
Theorem encode_checksum (command : nec_request_t) (value : Z) :
  wf_request command ->
  let frame := encode command value in
  let etx := (length (bytes command) + 12)%nat in
  nth etx frame 0 = 0x03 /\
  nth (S etx) frame 0 = xor_reduce (slice 1 etx frame).
Proof.
  intros Hwf frame etx. subst frame etx.
  rewrite (encode_eq _ _ Hwf).
  pose proof (length_body command value) as Hlen.
  rewrite <- Hlen.
  set (B := body command value) in *.
  set (c := xor_reduce (skipn 1 (B ++ [0x03]))).
  split.
  - rewrite app_nth2 by lia. now rewrite Nat.sub_diag.
  - rewrite app_nth2 by lia.
    replace (S (length B) - length B)%nat with 1%nat by lia.
    simpl nth. unfold c, slice.
    destruct B as [| x B']; [simpl in Hlen; lia | ].
    simpl length. simpl skipn.
    replace (S (S (length B')) - 1)%nat with (length B' + 1)%nat by lia.
    rewrite firstn_app, firstn_all2 by lia.
    replace (length B' + 1 - length B')%nat with 1%nat by lia.
    reflexivity.
Qed.

Lemma encode_checksum_witness :
  wf_request (nec_commands_list backlight) /\
  nth 16 (encode (nec_commands_list backlight) 50) 0 = 0x03 /\
  nth 17 (encode (nec_commands_list backlight) 50) 0 =
    xor_reduce (slice 1 16 (encode (nec_commands_list backlight) 50)).
Proof.
  assert (H : wf_request (nec_commands_list backlight)).
  { unfold wf_request, wf_data, is_uint8. simpl.
    repeat (apply Forall_cons; [lia | ]). apply Forall_nil. }
  split; [exact H | ].
  exact (encode_checksum (nec_commands_list backlight) 50 H).
Defined.

(** C2. For a raw payload length [L] from 0 to 15, the header that
    [fill_buffer_start] appends has ['0'] as its first message-length byte
    and, as its second, ['0' + L] when [L <= 9] and ['A' + (L - 10)], which
    is [0x30 + L + 7], when [10 <= L]. *)
Theorem fill_buffer_start_length_bytes (buffer : nec_data_t)
  (type : nec_message_t) (L : Z) :
  0 <= L <= 15 ->
  let out := fill_buffer_start buffer type L in
  nth (length buffer + 5) out 0 = 0x30 /\
  nth (length buffer + 6) out 0 =
    (if L <=? 9 then 0x30 + L else 0x41 + (L - 10)) /\
  0x41 + (L - 10) = 0x30 + L + 7.
Proof.
  intros HL out. subst out. rewrite fill_buffer_start_eq.
  rewrite !app_nth2_plus. unfold header, length_byte. cbn [nth].
  split; [reflexivity | split; [ | lia ]].
  destruct (L <=? 9) eqn:E9.
  - apply Z.leb_le in E9.
    replace (L >? 9) with false by (symmetry; rewrite Z.gtb_ltb; apply Z.ltb_ge; lia).
    apply to_uint8_small. unfold is_uint8. lia.
  - apply Z.leb_gt in E9.
    replace (L >? 9) with true by (symmetry; rewrite Z.gtb_ltb; apply Z.ltb_lt; lia).
    rewrite to_uint8_small by (unfold is_uint8; lia). lia.
Qed.

Lemma fill_buffer_start_length_bytes_witness :
  0 <= 12 <= 15 /\
  nth 5 (fill_buffer_start [] command 12) 0 = 0x30 /\
  nth 6 (fill_buffer_start [] command 12) 0 = 0x43.
Proof.
  assert (H : 0 <= 12 <= 15) by lia.
  split; [exact H | ].
  destruct (fill_buffer_start_length_bytes [] command 12 H) as [H5 [H6 _]].
  split; [exact H5 | exact H6].
Defined.

(** C3, as the code has it. [encode(Power, 1)] is
    01 30 41 30 41 30 43 02 43 32 30 33 44 36 30 30 30 31 03 73 0D:
    the second length byte is 0x43 (['C'], raw length 12), ETX is at
    offset 18, and the check byte 0x73 at offset 19 is the XOR of the
    bytes at offsets 1 through 18. *)
Theorem encode_power_on :
  encode (nec_commands_list power) nec_cmd_val_power_on =
    [0x01; 0x30; 0x41; 0x30; 0x41; 0x30; 0x43; 0x02;
     0x43; 0x32; 0x30; 0x33; 0x44; 0x36; 0x30; 0x30; 0x30; 0x31;
     0x03; 0x73; 0x0D] /\
  xor_reduce (slice 1 18 (encode (nec_commands_list power) nec_cmd_val_power_on))
    = 0x73.
Proof. split; reflexivity. Qed.

(** C3, as stated, fails: the frame of [encode(Power, 1)] is not the
    sequence with length byte 0x38 and check byte 0x77, and the XOR of the
    bytes at offsets 1 through 19 of that sequence is not 0x77 either. *)
Lemma power_on_frame_differs :
  encode (nec_commands_list power) 1 <>
    [0x01; 0x30; 0x41; 0x30; 0x41; 0x30; 0x38; 0x02;
     0x43; 0x32; 0x30; 0x33; 0x44; 0x36; 0x30; 0x30; 0x30; 0x31;
     0x03; 0x77; 0x0D] /\
  nth 6 (encode (nec_commands_list power) 1) 0 = 0x43 /\
  nth 19 (encode (nec_commands_list power) 1) 0 = 0x73.
Proof.
  split; [ | split; reflexivity ].
  intros H. apply (f_equal (fun l => nth 6 l 0)) in H.
  vm_compute in H. discriminate H.
Qed.

(** C6. The frame of a request with a prefix of [prefix_len] bytes has
    [8 + prefix_len + 4 + 1 + 1 + 1] bytes, that is [prefix_len + 15],
    for every value (in range or not). *)
Theorem encode_length (command : nec_request_t) (value : Z) :
  length (encode command value) = (8 + length (bytes command) + 4 + 1 + 1 + 1)%nat /\
  length (encode command value) = (length (bytes command) + 15)%nat.
Proof. rewrite length_encode. split; lia. Qed.

(** C4, as the code has it. A request whose raw payload length exceeds 15
    does not make [encode] fail: the frame is complete, with all
    [prefix_len + 15] bytes, and its second length byte is
    [0x30 + raw length + 7] reduced to a byte. *)
Theorem encode_long_request (command : nec_request_t) (value : Z) :
  raw_len command > 15 ->
  length (encode command value) = (length (bytes command) + 15)%nat /\
  exists bcc,
    encode command value =
      [0x01; 0x30; 0x41; 0x30; nec_message_code (msg_type command); 0x30;
       to_uint8 (0x30 + raw_len command + 7); 0x02]
        ++ bytes command
        ++ map lowercase_hex_char (nibbles (to_uint16 value))
        ++ [0x03; bcc; 0x0D].
Proof.
  intros Hlen. split; [apply length_encode | ].
  destruct (encode_complete command value) as [bcc H].
  exists bcc. rewrite H. unfold header, length_byte.
  replace (raw_len command >? 9) with true
    by (symmetry; rewrite Z.gtb_ltb; apply Z.ltb_lt; lia).
  now rewrite Z.add_assoc.
Qed.

Lemma encode_long_request_witness :
  raw_len long_request > 15 /\
  length (encode long_request 1) = 25%nat /\
  exists bcc,
    encode long_request 1 =
      [0x01; 0x30; 0x41; 0x30; 0x41; 0x30; 0x47; 0x02]
        ++ [0x43; 0x32; 0x30; 0x33; 0x44; 0x36; 0x30; 0x30; 0x30; 0x31]
        ++ [0x30; 0x30; 0x30; 0x31]
        ++ [0x03; bcc; 0x0D].
Proof.
  assert (H : raw_len long_request > 15) by reflexivity.
  split; [exact H | ].
  exact (encode_long_request long_request 1 H).
Defined.

(** C4, as stated, fails: for a prefix of ten bytes the raw length is 16
    and [encode] returns a frame of 25 bytes. *)
Lemma long_request_is_encoded :
  raw_len long_request > 15 /\
  encode long_request 1 =
    [0x01; 0x30; 0x41; 0x30; 0x41; 0x30; 0x47; 0x02;
     0x43; 0x32; 0x30; 0x33; 0x44; 0x36; 0x30; 0x30; 0x30; 0x31;
     0x30; 0x30; 0x30; 0x31; 0x03; 0x76; 0x0D].
Proof. split; reflexivity. Qed.

(** C5, as the code has it. A value above 65535 or below 0 does not make
    [encode] fail: the frame is the complete frame of the value reduced
    modulo 65536. *)
Theorem encode_value_out_of_range (command : nec_request_t) (value : Z) :
  value > 65535 \/ value < 0 ->
  encode command value = encode command (value mod 65536) /\
  length (encode command value) = (length (bytes command) + 15)%nat.
Proof.
  intros _. split; [apply encode_mod | apply length_encode].
Qed.

Lemma encode_value_out_of_range_witness :
  (65537 > 65535 \/ 65537 < 0) /\
  encode (nec_commands_list backlight) 65537 = encode (nec_commands_list backlight) 1 /\
  length (encode (nec_commands_list backlight) 65537) = 19%nat.
Proof.
  assert (H : 65537 > 65535 \/ 65537 < 0) by (left; reflexivity).
  split; [exact H | ].
  exact (encode_value_out_of_range (nec_commands_list backlight) 65537 H).
Defined.

(** C5, as stated, fails: for the values 65536 and -1 the command is
    sent, with the digits of 0 and of 65535, and nothing is thrown when
    the display answers. *)
Lemma out_of_range_value_is_sent :
  65536 > 65535 /\ -1 < 0 /\
  encode (nec_commands_list power) 65536 =
    [0x01; 0x30; 0x41; 0x30; 0x41; 0x30; 0x43; 0x02;
     0x43; 0x32; 0x30; 0x33; 0x44; 0x36; 0x30; 0x30; 0x30; 0x30;
     0x03; 0x72; 0x0D] /\
  encode (nec_commands_list backlight) (-1) =
    [0x01; 0x30; 0x41; 0x30; 0x45; 0x30; 0x41; 0x02;
     0x30; 0x30; 0x31; 0x30; 0x66; 0x66; 0x66; 0x66;
     0x03; 0x75; 0x0D] /\
  fst (send_standard_cmd power 65536 (world0 [Some []])) = Returned tt /\
  frames_sent (send_standard_cmd power 65536) (world0 [Some []]) =
    [encode (nec_commands_list power) 0].
Proof. repeat split. Qed.

(** C7 at the failing input. With [--backlight 0], which the option's
    check accepts, and no [--power], [main] writes nothing to the socket:
    the guard is [backlight > 0]. *)
Theorem main_backlight_zero_sends_nothing (ip port : string) (v : bool)
  (w : dsp_world) :
  cli_valid (mk_options ip port "" 0 v) = true /\
  frames_sent (main (mk_options ip port "" 0 v)) w = [].
Proof.
  split; [reflexivity | ].
  destruct w as [resolve so co replies written sock out err].
  unfold frames_sent.
  destruct v; run_io;
    (destruct (resolve ip port); run_io; [ | apply skipn_all ]);
    (destruct so; run_io; [ | apply skipn_all ]);
    destruct co; run_io; apply skipn_all.
Qed.

(** The sibling case: a backlight value from 1 to 100 is sent, as the
    frame of a set-parameter request that carries the value. *)
Lemma main_backlight_positive_sends (ip port : string) (v : bool) (b : Z)
  (w : dsp_world) :
  1 <= b <= 100 ->
  net_getaddrinfo w ip port = true -> net_socket w = true ->
  net_connect w = true ->
  frames_sent (main (mk_options ip port "" b v)) w =
    [encode (nec_commands_list backlight) b].
Proof.
  intros Hb Ha Hs Hc.
  assert (Hgt : (b >? 0) = true) by (rewrite Z.gtb_ltb; apply Z.ltb_lt; lia).
  destruct w as [resolve so co replies written sock out err].
  simpl in Ha, Hs, Hc. subst so co.
  unfold frames_sent.
  destruct v; run_io; rewrite Ha; run_io; rewrite Hgt.
  all: match goal with |- context [send_standard_cmd ?c ?x ?y] =>
         pose proof (send_standard_cmd_written c x y) as H;
         destruct (send_standard_cmd c x y) as [[u | [what]] w']
       end;
       change (skipn (length written) (net_written w') =
                 [encode (nec_commands_list backlight) b]);
       simpl in H; rewrite H;
       rewrite skipn_app, skipn_all, Nat.sub_diag; reflexivity.
Qed.

(** C8. The frame depends on the message kind, the prefix and the value
    only: equal arguments give equal frames, and the frame that
    [send_standard_cmd] writes is the same whatever the state of the
    socket and of the console. *)
Theorem encode_deterministic (c1 c2 : nec_request_t) (v1 v2 : Z)
  (cmd : nec_command_t) (w1 w2 : dsp_world) :
  msg_type c1 = msg_type c2 -> bytes c1 = bytes c2 -> v1 = v2 ->
  encode c1 v1 = encode c2 v2 /\
  frames_sent (send_standard_cmd cmd v1) w1 =
    frames_sent (send_standard_cmd cmd v2) w2.
Proof.
  intros Ht Hb Hv. subst v2. split.
  - destruct c1 as [t1 b1], c2 as [t2 b2]. simpl in Ht, Hb. now subst.
  - now rewrite !send_standard_cmd_frames.
Qed.

Lemma encode_deterministic_witness :
  encode (mk_request set_parameter [0x30; 0x30; 0x31; 0x30]) 50 =
    encode (nec_commands_list backlight) 50 /\
  frames_sent (send_standard_cmd backlight 50) (world0 []) =
    frames_sent (send_standard_cmd backlight 50)
      (set_written [[0x01]] (world0 [Some [0x01; 0x30]; None])).
Proof.
  exact (encode_deterministic
           (mk_request set_parameter [0x30; 0x30; 0x31; 0x30])
           (nec_commands_list backlight) 50 50 backlight
           (world0 [])
           (set_written [[0x01]] (world0 [Some [0x01; 0x30]; None]))
           eq_refl eq_refl eq_refl).
Defined.

(** C9 at the failing inputs. The answer is not checked yet (the source
    says so at line 119: the check is still to do and the output is for
    debugging): for a received sequence shorter than 9 bytes
    [check_answer] reports no malformed answer, it prints the bytes and
    returns. *)
Theorem check_answer_accepts_short (data : nec_data_t)
  (rest : list (option nec_data_t)) (w : dsp_world) :
  net_replies w = Some data :: rest ->
  (length data < 9)%nat ->
  fst (check_answer w) = Returned tt /\
  std_cout (snd (check_answer w)) =
    std_cout w ++ map cout_hex_byte data ++ [cout_endl] /\
  net_replies (snd (check_answer w)) = rest.
Proof.
  intros Hr Hlen. unfold check_answer, bind, read. rewrite Hr.
  change (Z.to_nat nec_max_msg_len) with 64%nat.
  rewrite firstn_all2 by lia. simpl.
  repeat split. now rewrite <- app_assoc.
Qed.

Lemma check_answer_accepts_short_witness :
  (length [0x01; 0x30] < 9)%nat /\
  fst (check_answer (world0 [Some [0x01; 0x30]])) = Returned tt /\
  std_cout (snd (check_answer (world0 [Some [0x01; 0x30]]))) =
    [cout_hex_byte 0x01; cout_hex_byte 0x30; cout_endl] /\
  net_replies (snd (check_answer (world0 [Some [0x01; 0x30]]))) = [].
Proof.
  assert (H : (length [0x01; 0x30] < 9)%nat) by (simpl; lia).
  split; [exact H | ].
  exact (check_answer_accepts_short [0x01; 0x30] [] (world0 [Some [0x01; 0x30]])
           eq_refl H).
Defined.

(** Two such answers: after receiving two bytes, or none, [check_answer]
    returns without an exception. *)
Lemma short_answer_is_accepted :
  (length [0x01; 0x30] < 9)%nat /\
  fst (check_answer (world0 [Some [0x01; 0x30]])) = Returned tt /\
  fst (check_answer (world0 [Some []])) = Returned tt.
Proof. repeat split. simpl. lia. Qed.

Lemma nibbles_value n :
  0 <= n < 65536 ->
  (n / 4096 mod 16) * 4096 + (n / 256 mod 16) * 256 + (n / 16 mod 16) * 16
    + n mod 16 = n.
Proof. intros H. Z.div_mod_to_equations. lia. Qed.

(** C10. [fill_number] appends the four lowercase hexadecimal characters
    of the value modulo 65536, so a value and its remainder give the same
    frame; and no value makes the sending fail: the frame is written, and
    the only exception is that of a failed [read]. *)
Theorem fill_number_truncates (buffer : nec_data_t) (command : nec_request_t)
  (cmd : nec_command_t) (value : Z) (w : dsp_world) :
  fill_number buffer value =
    buffer ++ map lowercase_hex_char (nibbles (value mod 65536)) /\
  encode command value = encode command (value mod 65536) /\
  frames_sent (send_standard_cmd cmd value) w =
    [encode (nec_commands_list cmd) (value mod 65536)] /\
  fst (send_standard_cmd cmd value w) =
    match net_replies w with
    | Some _ :: _ => Returned tt
    | _ => Thrown (runtime_error "cannot read from socket")
    end.
Proof.
  split; [ | split; [ | split ] ].
  - rewrite fill_number_eq, hex_nibbles_lowercase. reflexivity.
  - apply encode_mod.
  - rewrite send_standard_cmd_frames. f_equal. apply encode_mod.
  - apply send_standard_cmd_outcome.
Qed.

(** ** Further properties of the frames *)

Lemma slice_mid (a b c : list Z) i j :
  i = length a -> S j = (i + length b)%nat -> slice i j (a ++ b ++ c) = b.
Proof.
  intros Hi Hj. unfold slice. subst i.
  replace (S j - length a)%nat with (length b) by lia.
  rewrite skipn_app, skipn_all, Nat.sub_diag. cbn [skipn app].
  rewrite firstn_app, firstn_all, Nat.sub_diag. cbn [firstn]. apply app_nil_r.
Qed.

Lemma app_same_length_inv (a a' b b' : list Z) :
  length a = length a' -> a ++ b = a' ++ b' -> a = a' /\ b = b'.
Proof.
  revert a'. induction a as [| x a IH]; intros [| x' a'] Hlen H;
    simpl in Hlen; try discriminate.
  - now split.
  - simpl in H. injection H as Hx Hrest.
    destruct (IH a' (eq_add_S _ _ Hlen) Hrest) as [-> ->]. now subst.
Qed.

(** What [fill_buffer_end] appends, whatever the buffer holds. *)
Lemma fill_buffer_end_app buffer :
  exists bcc, fill_buffer_end buffer = buffer ++ [0x03; bcc; 0x0D].
Proof.
  unfold fill_buffer_end, push_back. eexists.
  change (to_uint8 0x03) with 0x03. change (to_uint8 0x0D) with 0x0D.
  rewrite <- !app_assoc. reflexivity.
Qed.

Lemma hex_char_value_digit d :
  0 <= d < 16 -> hex_char_value (hex_digit d) = Some d.
Proof.
  intros H.
  assert (C : d = 0 \/ d = 1 \/ d = 2 \/ d = 3 \/ d = 4 \/ d = 5 \/ d = 6 \/ d = 7
              \/ d = 8 \/ d = 9 \/ d = 10 \/ d = 11 \/ d = 12 \/ d = 13 \/ d = 14
              \/ d = 15) by lia.
  repeat (destruct C as [-> | C]; [reflexivity | ]). now subst.
Qed.

(** Reading back the four digits of a 16-bit number gives the number. *)
Lemma from_hex_nibbles n :
  0 <= n < 65536 -> from_hex (map hex_digit (nibbles n)) = Some n.
Proof.
  intros Hn. unfold from_hex, nibbles. cbn [map fold_left].
  rewrite !hex_char_value_digit by (apply Z.mod_pos_bound; lia).
  f_equal. rewrite <- (nibbles_value n Hn) at 5. lia.
Qed.

Lemma nec_message_code_inj t1 t2 :
  nec_message_code t1 = nec_message_code t2 -> t1 = t2.
Proof. destruct t1, t2; simpl; intros H; try reflexivity; discriminate H. Qed.

(** X1. Two frames are equal only if they were built from the same
    message kind, the same prefix and values that agree modulo 65536. *)
Theorem encode_injective (c1 c2 : nec_request_t) (v1 v2 : Z) :
  encode c1 v1 = encode c2 v2 ->
  msg_type c1 = msg_type c2 /\ bytes c1 = bytes c2 /\
  v1 mod 65536 = v2 mod 65536.
Proof.
  intros H.
  assert (Hlen : length (bytes c1) = length (bytes c2)).
  { apply (f_equal (@length Z)) in H. rewrite !length_encode in H. lia. }
  rewrite !encode_unfold in H.
  destruct (fill_buffer_end_app (body c1 v1)) as [x1 E1].
  destruct (fill_buffer_end_app (body c2 v2)) as [x2 E2].
  rewrite E1, E2 in H.
  apply app_same_length_inv in H; [ | rewrite !length_body; lia ].
  destruct H as [H _]. unfold body, header in H. cbn [app] in H.
  injection H as Hcode _ Hrest.
  apply app_same_length_inv in Hrest; [ | exact Hlen ].
  destruct Hrest as [Hbytes Hdigits].
  split; [now apply nec_message_code_inj | split; [exact Hbytes | ]].
  apply (f_equal from_hex) in Hdigits.
  change (from_hex (map hex_digit (nibbles (to_uint16 v1))) =
          from_hex (map hex_digit (nibbles (to_uint16 v2)))) in Hdigits.
  rewrite !from_hex_nibbles in Hdigits by apply to_uint16_range.
  now injection Hdigits.
Qed.

Lemma encode_injective_witness :
  encode (nec_commands_list backlight) 65586 = encode (nec_commands_list backlight) 50 /\
  65586 mod 65536 = 50 mod 65536.
Proof.
  assert (H : encode (nec_commands_list backlight) 65586 =
              encode (nec_commands_list backlight) 50) by reflexivity.
  split; [exact H | ].
  exact (proj2 (proj2 (encode_injective _ _ 65586 50 H))).
Defined.

(** X2. The four characters that follow the prefix in a frame, read back
    as a hexadecimal number, give the value modulo 65536 (the value itself
    when it is between 0 and 65535). *)
Theorem encode_value_roundtrip (command : nec_request_t) (value : Z) :
  let n := length (bytes command) in
  from_hex (slice (n + 8) (n + 11) (encode command value)) =
    Some (value mod 65536).
Proof.
  intros n. subst n. rewrite encode_unfold.
  destruct (fill_buffer_end_app (body command value)) as [x E]. rewrite E.
  unfold body. rewrite app_assoc, <- (app_assoc _ _ [0x03; x; 0x0D]).
  rewrite slice_mid.
  - apply from_hex_nibbles, to_uint16_range.
  - rewrite length_app. simpl. lia.
  - simpl. lia.
Qed.

Lemma hex_char_value_length_byte L :
  0 <= L <= 15 -> hex_char_value (length_byte L) = Some L.
Proof.
  intros H.
  assert (C : L = 0 \/ L = 1 \/ L = 2 \/ L = 3 \/ L = 4 \/ L = 5 \/ L = 6 \/ L = 7
              \/ L = 8 \/ L = 9 \/ L = 10 \/ L = 11 \/ L = 12 \/ L = 13 \/ L = 14
              \/ L = 15) by lia.
  repeat (destruct C as [-> | C]; [reflexivity | ]). now subst.
Qed.

Lemma hex_char_value_length_byte_none L :
  15 < L <= 41 -> hex_char_value (length_byte L) = None.
Proof.
  intros H. unfold length_byte, to_uint8.
  replace (L >? 9) with true by (symmetry; rewrite Z.gtb_ltb; apply Z.ltb_lt; lia).
  set (c := (0x30 + (L + 7)) mod 256).
  assert (Hc : 71 <= c < 97)
    by (subst c; Z.div_mod_to_equations; lia).
  unfold hex_char_value.
  repeat match goal with
         | |- context [?a <=? ?b] => destruct (Z.leb_spec a b)
         end; simpl; try reflexivity; lia.
Qed.

(** The frame as a header, a prefix, four digits and a trailer. *)
Lemma encode_parts command value :
  exists bcc,
    encode command value =
      header (msg_type command) (raw_len command) ++ bytes command
        ++ map hex_digit (nibbles (to_uint16 value)) ++ [0x03; bcc; 0x0D].
Proof.
  rewrite encode_unfold.
  destruct (fill_buffer_end_app (body command value)) as [x E].
  exists x. rewrite E. unfold body. now rewrite <- !app_assoc.
Qed.

(** X3. When the raw payload length is at most 15, the two length
    characters of the frame, read as a hexadecimal number, count the bytes
    of the frame from STX through ETX. *)
Theorem length_field_counts_payload (command : nec_request_t) (value : Z) :
  raw_len command <= 15 ->
  let frame := encode command value in
  let etx := (length (bytes command) + 12)%nat in
  from_hex (slice 5 6 frame) = Some (Z.of_nat (length (slice 7 etx frame))).
Proof.
  intros Hraw frame etx. subst frame etx.
  assert (Hcount : Z.of_nat (length (slice 7 (length (bytes command) + 12)
                                       (encode command value)))
                   = raw_len command).
  { unfold slice. rewrite length_firstn, length_skipn, length_encode.
    unfold raw_len, nec_std_int_len, nec_stx_etx_len. lia. }
  rewrite Hcount.
  destruct (encode_parts command value) as [x E]. rewrite E.
  unfold header, slice. cbn [app skipn firstn Nat.sub].
  unfold from_hex. cbn [fold_left].
  change (hex_char_value 0x30) with (Some 0).
  rewrite hex_char_value_length_byte.
  - f_equal; lia.
  - unfold raw_len, nec_std_int_len, nec_stx_etx_len in *. lia.
Qed.

Lemma length_field_counts_payload_witness :
  raw_len (nec_commands_list power) <= 15 /\
  from_hex (slice 5 6 (encode (nec_commands_list power) 1)) =
    Some (Z.of_nat (length (slice 7 18 (encode (nec_commands_list power) 1)))).
Proof.
  assert (H : raw_len (nec_commands_list power) <= 15)
    by (unfold raw_len; simpl; lia).
  split; [exact H | ].
  exact (length_field_counts_payload (nec_commands_list power) 1 H).
Defined.

(** X4. When the raw payload length is above 15 (and at most 41), the
    second length character lies between ['G'] and ['`'] and is not a
    hexadecimal digit: the length field of the frame cannot be read
    back. *)
Theorem length_field_overflow (command : nec_request_t) (value : Z) :
  15 < raw_len command <= 41 ->
  hex_char_value (nth 6 (encode command value) 0) = None /\
  from_hex (slice 5 6 (encode command value)) = None.
Proof.
  intros Hraw.
  destruct (encode_parts command value) as [x E]. rewrite E.
  unfold header, slice. cbn [app skipn firstn Nat.sub nth].
  unfold from_hex. cbn [fold_left].
  rewrite hex_char_value_length_byte_none by exact Hraw.
  split; reflexivity.
Qed.

Lemma length_field_overflow_witness :
  15 < raw_len long_request <= 41 /\
  hex_char_value (nth 6 (encode long_request 1) 0) = None /\
  from_hex (slice 5 6 (encode long_request 1)) = None.
Proof.
  assert (H : 15 < raw_len long_request <= 41)
    by (unfold raw_len; simpl; lia).
  split; [exact H | ].
  exact (length_field_overflow long_request 1 H).
Defined.

(** X5. The fixed bytes of every frame: it opens with SOH, the reserved
    byte, the two equipment ids and the code of the message kind, has STX
    at offset 7, the prefix unchanged from offset 8, ETX after the four
    digits and the delimiter as its last byte. *)
Theorem encode_layout (command : nec_request_t) (value : Z) :
  let n := length (bytes command) in
  let frame := encode command value in
  firstn 5 frame = [0x01; 0x30; 0x41; 0x30; nec_message_code (msg_type command)] /\
  nth 7 frame 0 = 0x02 /\
  slice 8 (n + 7) frame = bytes command /\
  nth (n + 12) frame 0 = 0x03 /\
  nth (n + 14) frame 0 = 0x0D /\
  length frame = (n + 15)%nat.
Proof.
  intros n frame. subst n frame.
  split; [ | split; [ | split; [ | split; [ | split ] ] ] ].
  - destruct (encode_parts command value) as [x E]. rewrite E. reflexivity.
  - destruct (encode_parts command value) as [x E]. rewrite E. reflexivity.
  - destruct (encode_parts command value) as [x E]. rewrite E.
    apply slice_mid; [reflexivity | simpl; lia].
  - rewrite encode_unfold.
    destruct (fill_buffer_end_app (body command value)) as [x E]. rewrite E.
    replace (length (bytes command) + 12)%nat
      with (length (body command value) + 0)%nat by (rewrite length_body; lia).
    now rewrite app_nth2_plus.
  - rewrite encode_unfold.
    destruct (fill_buffer_end_app (body command value)) as [x E]. rewrite E.
    replace (length (bytes command) + 14)%nat
      with (length (body command value) + 2)%nat by (rewrite length_body; lia).
    now rewrite app_nth2_plus.
  - apply length_encode.
Qed.

(** ** Further properties of the block check code *)

Lemma fold_lxor_acc l : forall acc,
  fold_left Z.lxor l acc = Z.lxor acc (xor_reduce l).
Proof.
  unfold xor_reduce.
  induction l as [| x l IH]; intros acc; simpl.
  - now rewrite Z.lxor_0_r.
  - rewrite (IH (Z.lxor acc x)), (IH x). apply Z.lxor_assoc.
Qed.

Lemma xor_reduce_app a b :
  xor_reduce (a ++ b) = Z.lxor (xor_reduce a) (xor_reduce b).
Proof.
  unfold xor_reduce at 1. rewrite fold_left_app.
  fold (xor_reduce a). apply fold_lxor_acc.
Qed.

Lemma xor_reduce_cons x l : xor_reduce (x :: l) = Z.lxor x (xor_reduce l).
Proof. unfold xor_reduce at 1. simpl. apply fold_lxor_acc. Qed.

Lemma lxor_cancel_l a b c : Z.lxor a b = Z.lxor a c -> b = c.
Proof.
  intros H. apply (f_equal (Z.lxor a)) in H.
  now rewrite <- !Z.lxor_assoc, Z.lxor_nilpotent, !Z.lxor_0_l in H.
Qed.

Lemma lxor_cancel_r a b c : Z.lxor b a = Z.lxor c a -> b = c.
Proof. rewrite !(Z.lxor_comm _ a). apply lxor_cancel_l. Qed.

(** The loop from a positive index on never reads the first byte. *)
Lemma bcc_loop_tail x l todo : forall index check,
  bcc_loop (x :: l) (S index) todo check = bcc_loop l index todo check.
Proof.
  induction todo as [| todo IH]; intros index check; simpl; [reflexivity | ].
  apply IH.
Qed.

(** X6. XOR-reducing a frame from index 1 through the check byte gives 0,
    which is how a receiver verifies the block check code. *)
Theorem frame_xor_is_zero (command : nec_request_t) (value : Z) :
  wf_request command ->
  let frame := encode command value in
  let etx := (length (bytes command) + 12)%nat in
  xor_reduce (slice 1 (S etx) frame) = 0.
Proof.
  intros Hwf frame etx. subst frame etx.
  rewrite (encode_eq _ _ Hwf).
  pose proof (length_body command value) as Hlen. rewrite <- Hlen.
  set (B := body command value) in *.
  destruct B as [| b0 B']; [simpl in Hlen; lia | ].
  unfold slice. cbn [app skipn length].
  set (c := xor_reduce (B' ++ [0x03])).
  replace (S (S (S (length B'))) - 1)%nat with (length (B' ++ [0x03; c]))
    by (rewrite length_app; simpl; lia).
  change (B' ++ [0x03; c; 0x0D]) with (B' ++ [0x03; c] ++ [0x0D]).
  rewrite app_assoc, firstn_app, firstn_all, Nat.sub_diag. cbn [firstn].
  rewrite app_nil_r.
  change (B' ++ [0x03; c]) with (B' ++ [0x03] ++ [c]).
  rewrite app_assoc, xor_reduce_app. fold c.
  rewrite xor_reduce_cons. unfold xor_reduce at 1. simpl.
  rewrite Z.lxor_0_r. apply Z.lxor_nilpotent.
Qed.

Lemma frame_xor_is_zero_witness :
  wf_request (nec_commands_list power) /\
  xor_reduce (slice 1 19 (encode (nec_commands_list power) 4)) = 0.
Proof.
  assert (H : wf_request (nec_commands_list power)).
  { unfold wf_request, wf_data, is_uint8. simpl.
    repeat (apply Forall_cons; [lia | ]). apply Forall_nil. }
  split; [exact H | ].
  exact (frame_xor_is_zero (nec_commands_list power) 4 H).
Defined.

(** X7. The block check code detects one changed byte: two buffers of
    bytes that differ in one position other than the first get different
    check bytes from [fill_buffer_end]. *)
Theorem fill_buffer_end_detects_byte (pre post : nec_data_t) (x y : Z) :
  pre <> [] -> wf_data (pre ++ x :: post) -> wf_data (pre ++ y :: post) ->
  x <> y ->
  let check := fun buffer => nth (S (length buffer)) (fill_buffer_end buffer) 0 in
  check (pre ++ x :: post) <> check (pre ++ y :: post).
Proof.
  intros Hpre Hx Hy Hxy check. subst check. cbv beta.
  assert (L : forall z, (2 <= length (pre ++ z :: post))%nat).
  { intros z. rewrite length_app. destruct pre; [contradiction | simpl; lia]. }
  rewrite (fill_buffer_end_eq _ Hx (L x)), (fill_buffer_end_eq _ Hy (L y)).
  assert (N : forall (B : nec_data_t) c,
             nth (S (length B)) (B ++ [0x03; c; 0x0D]) 0 = c).
  { intros B c. replace (S (length B)) with (length B + 1)%nat by lia.
    now rewrite app_nth2_plus. }
  rewrite !N.
  destruct pre as [| p0 pre']; [contradiction | ].
  cbn [app skipn]. rewrite <- !app_assoc. cbn [app].
  rewrite !xor_reduce_app, !xor_reduce_cons.
  intros H. apply lxor_cancel_l, lxor_cancel_r in H. contradiction.
Qed.

Lemma fill_buffer_end_detects_byte_witness :
  nth 5 (fill_buffer_end [0x01; 0x30; 0x41; 0x30]) 0 <>
  nth 5 (fill_buffer_end [0x01; 0x30; 0x45; 0x30]) 0.
Proof.
  assert (W : forall l, forallb (fun b => (0 <=? b) && (b <? 256)) l = true ->
                        wf_data l).
  { intros l H. unfold wf_data. apply Forall_forall. intros b Hb.
    rewrite forallb_forall in H. specialize (H b Hb).
    apply andb_true_iff in H. unfold is_uint8. lia. }
  apply (fill_buffer_end_detects_byte [0x01; 0x30] [0x30] 0x41 0x45).
  - discriminate.
  - apply W. reflexivity.
  - apply W. reflexivity.
  - discriminate.
Defined.

(** X8. The first byte of the buffer is not covered by the block check
    code: changing it leaves the check byte as it is. *)
Theorem fill_buffer_end_skips_first (x y : Z) (rest : nec_data_t) :
  nth (length rest + 2) (fill_buffer_end (x :: rest)) 0 =
  nth (length rest + 2) (fill_buffer_end (y :: rest)) 0.
Proof.
  assert (E : forall z,
             nth (length rest + 2) (fill_buffer_end (z :: rest)) 0 =
             to_uint8 (bcc_loop (rest ++ [to_uint8 0x03]) 1
                         (length (rest ++ [to_uint8 0x03]) - 1)
                         (nth 0 (rest ++ [to_uint8 0x03]) 0))).
  { intros z. unfold fill_buffer_end, push_back.
    rewrite <- app_assoc.
    replace (length rest + 2)%nat
      with (length ((z :: rest) ++ [to_uint8 0x03]) + 0)%nat
      by (rewrite length_app; simpl; lia).
    rewrite app_nth2_plus. cbn [nth app length].
    rewrite bcc_loop_tail. reflexivity. }
  now rewrite (E x), (E y).
Qed.

(** ** The monad *)

Lemma bind_returned {A B} (c : io A) (k : A -> io B) w a w1 :
  c w = (Returned a, w1) -> bind c k w = k a w1.
Proof. intros H. unfold bind. now rewrite H. Qed.

Lemma bind_thrown {A B} (c : io A) (k : A -> io B) w e w1 :
  c w = (Thrown e, w1) -> bind c k w = (Thrown e, w1).
Proof. intros H. unfold bind. now rewrite H. Qed.



Lemma preserves_throw {A B} (f : dsp_world -> B) e : preserves f (@throw A e).
Proof. intros w. reflexivity. Qed.

Lemma preserves_get {A B} (f : dsp_world -> B) (g : dsp_world -> A) :
  preserves f (get g).
Proof. intros w. reflexivity. Qed.





(** ** Connecting *)

(** [connect] stops at the first call that fails. *)
Lemma connect_eq ip port w :
  connect ip port w =
    if negb (net_getaddrinfo w ip port)
    then (Thrown (runtime_error "cannot get address info"), w)
    else if negb (net_socket w)
    then (Thrown (runtime_error "cannot create socket"), w)
    else if negb (net_connect w)
    then (Thrown (runtime_error "cannot connect to monitor"),
          set_socket false (set_socket true w))
    else (Returned tt, set_socket true w).
Proof.
  unfold connect, bind, get, modify, throw, ret, close.
  destruct (net_getaddrinfo w ip port); simpl; [ | reflexivity ].
  destruct (net_socket w); simpl; [ | reflexivity ].
  destruct (net_connect w); reflexivity.
Qed.

Lemma connect_ok ip port w :
  net_getaddrinfo w ip port = true -> net_socket w = true ->
  net_connect w = true ->
  connect ip port w = (Returned tt, set_socket true w).
Proof. intros Ha Hs Hc. rewrite connect_eq, Ha, Hs, Hc. reflexivity. Qed.


(** X9. A failed [connect] leaves no open descriptor behind: starting
    with the descriptor closed, it is open afterwards exactly when
    [connect] returned, which is exactly when the three calls succeeded;
    and [connect] writes, reads and prints nothing. *)
Theorem connect_open_iff_returned (ip port : string) (w : dsp_world) :
  dsp_socket w = false ->
  (fst (connect ip port w) = Returned tt <->
   dsp_socket (snd (connect ip port w)) = true) /\
  (fst (connect ip port w) = Returned tt <->
   net_getaddrinfo w ip port && net_socket w && net_connect w = true) /\
  net_written (snd (connect ip port w)) = net_written w /\
  net_replies (snd (connect ip port w)) = net_replies w /\
  std_cout (snd (connect ip port w)) = std_cout w /\
  std_cerr (snd (connect ip port w)) = std_cerr w.
Proof.
  intros Hclosed. rewrite connect_eq.
  destruct (net_getaddrinfo w ip port), (net_socket w), (net_connect w);
    simpl; rewrite ?Hclosed; repeat split; intros H; try reflexivity;
    discriminate H.
Qed.

Lemma connect_open_iff_returned_witness :
  dsp_socket (world0 []) = false /\
  (fst (connect "10.0.0.240" "7142" (world0 [])) = Returned tt <->
   dsp_socket (snd (connect "10.0.0.240" "7142" (world0 []))) = true).
Proof.
  assert (H : dsp_socket (world0 []) = false) by reflexivity.
  split; [exact H | ].
  exact (proj1 (connect_open_iff_returned "10.0.0.240" "7142" (world0 []) H)).
Defined.

(** ** The program *)

Lemma when_cout_eq c evs w :
  when c (cout evs) w =
    (Returned tt, if c then set_cout (std_cout w ++ evs) w else w).
Proof. destruct c; reflexivity. Qed.


(** Names [stmts] the statements of [main] inside [try]. *)
Ltac main_body :=
  unfold main;
  match goal with
  | |- context [try_catch ?b _] => set (stmts := b) in *
  end.




(** X11. When the connection cannot be set up, [main] sends nothing and
    reads nothing, prints the message of the call that failed and
    returns 1. *)
Theorem main_without_connection (o : cli_options) (w : dsp_world) :
  net_getaddrinfo w (remote_ip o) (remote_port o) && net_socket w
    && net_connect w = false ->
  let what :=
    (if negb (net_getaddrinfo w (remote_ip o) (remote_port o))
     then "cannot get address info"
     else if negb (net_socket w) then "cannot create socket"
     else "cannot connect to monitor")%string in
  fst (main o w) = Returned 1 /\
  frames_sent (main o) w = [] /\
  net_replies (snd (main o w)) = net_replies w /\
  std_cerr (snd (main o w)) = std_cerr w ++ [error_line what].
Proof.
  intros Hnet what. subst what. unfold frames_sent.
  main_body.
  rewrite (bind_returned _ _ _ _ _ (when_cout_eq _ _ _)).
  match goal with |- context [try_catch stmts _ ?x] => set (w1 := x) in * end.
  assert (E : exists e w2,
             stmts w1 = (Thrown (runtime_error e), w2) /\
             e = (if negb (net_getaddrinfo w (remote_ip o) (remote_port o))
                  then "cannot get address info"
                  else if negb (net_socket w) then "cannot create socket"
                  else "cannot connect to monitor")%string /\
             net_written w2 = net_written w /\
             net_replies w2 = net_replies w /\
             std_cerr w2 = std_cerr w).
  { subst stmts. unfold bind at 1. rewrite connect_eq.
    assert (Ha : net_getaddrinfo w1 = net_getaddrinfo w)
      by (subst w1; destruct (verbose o); reflexivity).
    assert (Hs : net_socket w1 = net_socket w)
      by (subst w1; destruct (verbose o); reflexivity).
    assert (Hc : net_connect w1 = net_connect w)
      by (subst w1; destruct (verbose o); reflexivity).
    assert (Hw : net_written w1 = net_written w)
      by (subst w1; destruct (verbose o); reflexivity).
    assert (Hr : net_replies w1 = net_replies w)
      by (subst w1; destruct (verbose o); reflexivity).
    assert (He : std_cerr w1 = std_cerr w)
      by (subst w1; destruct (verbose o); reflexivity).
    rewrite Ha, Hs, Hc.
    destruct (net_getaddrinfo w (remote_ip o) (remote_port o)),
      (net_socket w), (net_connect w); try discriminate Hnet; cbn [negb];
      do 2 eexists; (split; [reflexivity | ]); repeat split; assumption. }
  destruct E as (e & w2 & E & -> & Hw & Hr & He).
  unfold try_catch. rewrite E. cbn.
  rewrite Hw, Hr, He, skipn_all. repeat split.
Qed.

Lemma main_without_connection_witness :
  fst (main (mk_options "10.0.0.240" "7142" "on" 50 false)
         (mk_world (fun _ _ => true) true false [Some []] [] false [] []))
    = Returned 1 /\
  frames_sent (main (mk_options "10.0.0.240" "7142" "on" 50 false))
    (mk_world (fun _ _ => true) true false [Some []] [] false [] []) = [].
Proof.
  pose proof (main_without_connection
                (mk_options "10.0.0.240" "7142" "on" 50 false)
                (mk_world (fun _ _ => true) true false [Some []] [] false [] [])
                eq_refl) as H.
  split; [exact (proj1 H) | exact (proj1 (proj2 H))].
Defined.

Lemma send_standard_cmd_answered cmd value data rest w :
  net_replies w = Some data :: rest ->
  send_standard_cmd cmd value w =
    (Returned tt, answered (encode (nec_commands_list cmd) value) data rest w).
Proof.
  intros H.
  unfold send_standard_cmd, check_answer, write, read, modify, bind.
  cbn [net_replies set_written]. rewrite H. reflexivity.
Qed.

Lemma send_standard_cmd_unanswered cmd value w :
  (forall data rest, net_replies w <> Some data :: rest) ->
  exists w',
    send_standard_cmd cmd value w =
      (Thrown (runtime_error "cannot read from socket"), w') /\
    net_written w' = net_written w ++ [encode (nec_commands_list cmd) value] /\
    dsp_socket w' = dsp_socket w /\ std_cerr w' = std_cerr w.
Proof.
  intros H.
  unfold send_standard_cmd, check_answer, write, read, modify, bind.
  cbn [net_replies set_written].
  destruct (net_replies w) as [| [data |] rest] eqn:E.
  - eexists. split; [reflexivity | repeat split].
  - exfalso. now apply (H data rest).
  - eexists. split; [reflexivity | repeat split].
Qed.

(** Projections of the states that the steps of [main] build. *)
Ltac world_simpl :=
  cbn [answered set_replies set_written set_socket set_cout set_cerr
       net_getaddrinfo net_socket net_connect net_replies net_written
       dsp_socket std_cout std_cerr fst snd].

(** Runs the next statement of a sequence when it returns. *)
Ltac step :=
  erewrite bind_returned;
  [ cbv beta
  | first [ apply connect_ok; world_simpl; assumption
          | apply send_standard_cmd_answered; world_simpl;
            first [eassumption | reflexivity]
          | reflexivity ] ].

(** What [main] does when the display accepts the connection and answers
    each command. *)
Lemma main_answered (o : cli_options) (w : dsp_world)
  (datas : list nec_data_t) (rest : list (option nec_data_t)) :
  net_getaddrinfo w (remote_ip o) (remote_port o) = true ->
  net_socket w = true -> net_connect w = true ->
  net_replies w = map Some datas ++ rest ->
  length datas = length (expected_frames o) ->
  exists w',
    main o w = (Returned 0, w') /\
    net_written w' = net_written w ++ expected_frames o /\
    net_replies w' = rest /\ dsp_socket w' = false.
Proof.
  destruct o as [ip port ps b v]. unfold expected_frames, main.
  cbn [remote_ip remote_port power_state opt_backlight verbose].
  intros Ha Hs Hc Hr Hlen.
  destruct v, (ps =? "on")%string, (ps =? "off")%string, (b >? 0);
    cbn [app length] in Hlen;
    repeat (destruct datas as [| ? datas]; try discriminate Hlen);
    cbn [map app] in Hr; cbv beta iota delta [when];
    (eexists; split;
     [ step; unfold try_catch; repeat step; reflexivity
     | world_simpl; rewrite <- ?app_assoc, ?app_nil_r; auto ]).
Qed.

(** X12. When the connection is accepted and the display answers every
    command, [main] sends the frames of the options in order (the power
    command with value 1 for ["on"] or 4 for ["off"], then the backlight
    command for a value above 0) and nothing else, reads one answer for
    each, closes the socket and returns 0. *)
Theorem main_sends_expected_frames (o : cli_options) (w : dsp_world)
  (datas : list nec_data_t) (rest : list (option nec_data_t)) :
  net_getaddrinfo w (remote_ip o) (remote_port o) = true ->
  net_socket w = true -> net_connect w = true ->
  net_replies w = map Some datas ++ rest ->
  length datas = length (expected_frames o) ->
  fst (main o w) = Returned 0 /\
  frames_sent (main o) w = expected_frames o /\
  net_replies (snd (main o w)) = rest /\
  dsp_socket (snd (main o w)) = false.
Proof.
  intros Ha Hs Hc Hr Hlen.
  destruct (main_answered o w datas rest Ha Hs Hc Hr Hlen)
    as (w' & E & Hw & Hrest & Hsock).
  unfold frames_sent. rewrite E. cbn [fst snd].
  rewrite Hw, skipn_app, skipn_all, Nat.sub_diag. repeat split; assumption.
Qed.

Lemma main_sends_expected_frames_witness :
  fst (main (mk_options "10.0.0.240" "7142" "off" 50 true)
         (world0 [Some [0x01]; Some []; None])) = Returned 0 /\
  frames_sent (main (mk_options "10.0.0.240" "7142" "off" 50 true))
    (world0 [Some [0x01]; Some []; None]) =
    [encode (nec_commands_list power) 4; encode (nec_commands_list backlight) 50] /\
  net_replies (snd (main (mk_options "10.0.0.240" "7142" "off" 50 true)
                      (world0 [Some [0x01]; Some []; None]))) = [None] /\
  dsp_socket (snd (main (mk_options "10.0.0.240" "7142" "off" 50 true)
                     (world0 [Some [0x01]; Some []; None]))) = false.
Proof.
  exact (main_sends_expected_frames
           (mk_options "10.0.0.240" "7142" "off" 50 true)
           (world0 [Some [0x01]; Some []; None])
           [[0x01]; []] [None] eq_refl eq_refl eq_refl eq_refl eq_refl).
Defined.

(** Runs a command whose answer does not come. *)
Ltac unanswered_step :=
  match goal with
  | |- context [bind (send_standard_cmd ?c ?x) _ ?W] =>
      let w' := fresh "w'" in
      let E := fresh "E" in
      let Hw := fresh "Hw" in
      let Hd := fresh "Hd" in
      let He := fresh "He" in
      destruct (send_standard_cmd_unanswered c x W) as (w' & E & Hw & Hd & He);
      [ world_simpl; assumption
      | rewrite (bind_thrown _ _ _ _ _ E);
        cbv beta iota delta [bind cerr modify ret]; world_simpl;
        rewrite ?Hw, ?Hd, ?He; world_simpl ]
  end.

(** X13. [main] stops at the first command that gets no answer: after a
    connection that was accepted, when the first [read] fails, only the
    first frame of the options was sent, the error line is printed, the
    socket is left open (the handler does not call [disconnect]) and
    [main] returns 1. *)
Theorem main_stops_at_failed_read (o : cli_options) (w : dsp_world) :
  net_getaddrinfo w (remote_ip o) (remote_port o) = true ->
  net_socket w = true -> net_connect w = true ->
  (forall data rest, net_replies w <> Some data :: rest) ->
  expected_frames o <> [] ->
  fst (main o w) = Returned 1 /\
  frames_sent (main o) w = firstn 1 (expected_frames o) /\
  dsp_socket (snd (main o w)) = true /\
  std_cerr (snd (main o w)) =
    std_cerr w ++ [error_line "cannot read from socket"].
Proof.
  destruct o as [ip port ps b v]. unfold expected_frames, frames_sent, main.
  cbn [remote_ip remote_port power_state opt_backlight verbose].
  intros Ha Hs Hc Hr Hne.
  destruct v, (ps =? "on")%string, (ps =? "off")%string, (b >? 0);
    cbn [app firstn] in *; try contradiction;
    cbv beta iota delta [when];
    step; unfold try_catch; repeat step; unanswered_step;
    rewrite skipn_app, skipn_all, Nat.sub_diag; repeat split.
Qed.

Lemma main_stops_at_failed_read_witness :
  fst (main (mk_options "10.0.0.240" "7142" "on" 50 false) (world0 [None; Some []]))
    = Returned 1 /\
  frames_sent (main (mk_options "10.0.0.240" "7142" "on" 50 false))
    (world0 [None; Some []]) = [encode (nec_commands_list power) 1] /\
  dsp_socket (snd (main (mk_options "10.0.0.240" "7142" "on" 50 false)
                     (world0 [None; Some []]))) = true /\
  std_cerr (snd (main (mk_options "10.0.0.240" "7142" "on" 50 false)
                   (world0 [None; Some []]))) =
    [error_line "cannot read from socket"].
Proof.
  apply (main_stops_at_failed_read
           (mk_options "10.0.0.240" "7142" "on" 50 false)
           (world0 [None; Some []])).
  - reflexivity.
  - reflexivity.
  - reflexivity.
  - intros data rest H. discriminate H.
  - intros H. discriminate H.
Defined.
